(** * dcos-launch: the lifecycle orchestrator of [test_util/launch_cli.py]

    A shallow embedding of [_handle_logging], [do_main] and [main], and the
    properties of their control flow: which error wins, which collaborator
    is called before which, what is written and what the exit code is.

    Python strings are modelled as their UTF-8 bytes.  The
    collaborators imported from [pkgpanda.util] and [test_util.launch]
    ([load_yaml], [load_json], [write_json], [json_prettyprint],
    [get_launcher], the launcher objects, [repr] of the error classes) are
    parameters of the development, gathered in the record [Externals]. *)

From Stdlib Require Import ZArith Ascii String List Bool Lia.
From stdpp Require Import base option list gmap strings.

Open Scope string_scope.
Open Scope Z_scope.

Set Warnings "-register-all".

(** ** Strings *)

Definition upper_ascii (c : ascii) : ascii :=
  let n := N_of_ascii c in
  if ((97 <=? n) && (n <=? 122))%N then ascii_of_N (n - 32) else c.

(** A byte of an ASCII character. *)
Definition ascii_byte (c : ascii) : bool := (N_of_ascii c <? 128)%N.

(** [str.upper], character by character.  ASCII letters are mapped by
    [upper_ascii].  Of the characters outside ASCII, those whose upper-case
    form in Unicode is made of ASCII letters are mapped to it: U+0131
    (dotless i, bytes 196 177) to I, U+017F (long s, 197 191) to S, U+00DF
    (sharp s, 195 159) to SS, and the ligatures U+FB00 to U+FB06 (239 172
    128..134) to FF, FI, FL, FFI, FFL, ST and ST.  Every other character
    outside ASCII is left as it is, where Python puts its upper-case form:
    that form holds a character outside ASCII too, so the result equals an
    ASCII text exactly when Python's does, and differs from Python's only
    in how such a character is spelled (in the text of the InvalidOption
    message of a level that is refused either way). *)
Fixpoint upper (s : string) : string :=
  match s with
  | EmptyString => EmptyString
  | String c s' =>
      if ascii_byte c then String (upper_ascii c) (upper s')
      else
        match c, s' with
        | "196"%char, String "177"%char s'' => String "I" (upper s'')
        | "197"%char, String "191"%char s'' => String "S" (upper s'')
        | "195"%char, String "159"%char s'' => String "S" (String "S" (upper s''))
        | "239"%char, String "172"%char (String "128"%char s'') =>
            String "F" (String "F" (upper s''))
        | "239"%char, String "172"%char (String "129"%char s'') =>
            String "F" (String "I" (upper s''))
        | "239"%char, String "172"%char (String "130"%char s'') =>
            String "F" (String "L" (upper s''))
        | "239"%char, String "172"%char (String "131"%char s'') =>
            String "F" (String "F" (String "I" (upper s'')))
        | "239"%char, String "172"%char (String "132"%char s'') =>
            String "F" (String "F" (String "L" (upper s'')))
        | "239"%char, String "172"%char (String "133"%char s'') =>
            String "S" (String "T" (upper s''))
        | "239"%char, String "172"%char (String "134"%char s'') =>
            String "S" (String "T" (upper s''))
        | _, _ => String c (upper s')
        end
  end.

(** Text without a character outside ASCII. *)
Fixpoint is_ascii (s : string) : bool :=
  match s with
  | EmptyString => true
  | String c s' => ascii_byte c && is_ascii s'
  end.

Definition lower_ascii (c : ascii) : ascii :=
  let n := N_of_ascii c in
  if ((65 <=? n) && (n <=? 90))%N then ascii_of_N (n + 32) else c.

(** The lower-case form of ASCII text; two ASCII texts are equal up to
    case when their lower-case forms are equal. *)
Fixpoint lower (s : string) : string :=
  match s with
  | EmptyString => EmptyString
  | String c s' => String (lower_ascii c) (lower s')
  end.

(** [c in s] for a one-character [c] *)
Fixpoint contains (c : ascii) (s : string) : bool :=
  match s with
  | EmptyString => false
  | String c' s' => if Ascii.eqb c' c then true else contains c s'
  end.

(** [s.split(sep)] for a one-character separator: never the empty list *)
Fixpoint split (sep : ascii) (s : string) : list string :=
  match s with
  | EmptyString => [EmptyString]
  | String c s' =>
      if Ascii.eqb c sep then EmptyString :: split sep s'
      else match split sep s' with
           | [] => [String c EmptyString]
           | h :: t => String c h :: t
           end
  end.

(** [sep.join(l)] *)
Fixpoint join (sep : string) (l : list string) : string :=
  match l with
  | [] => EmptyString
  | [x] => x
  | x :: l' => x +:+ sep +:+ join sep l'
  end.

(** [s in l] for a tuple or list of strings *)
Definition in_list (s : string) (l : list string) : bool :=
  existsb (String.eqb s) l.

(** ** Documents, exceptions, results *)

Inductive value :=
| VNone
| VBool (b : bool)
| VInt (n : Z)
| VStr (s : string)
| VList (l : list value)
| VDict (d : list (string * value)).

(** A configuration or artifact document: a mapping with string keys. *)
Abbreviation doc := (gmap string value).

(** The exception classes [main] distinguishes: the two it catches, and
    every other class (named by its Python class name). *)
Inductive exn :=
| LauncherError (error msg : string)
| YamlParseError (msg : string)
| OtherException (name : string).

Inductive result (A : Type) :=
| Ok (a : A)
| Raise (e : exn).
Arguments Ok {A} a.
Arguments Raise {A} e.

Definition handled (e : exn) : bool :=
  match e with
  | LauncherError _ _ | YamlParseError _ => true
  | OtherException _ => false
  end.

(** The [error] field of a [LauncherError], the "kind" of the failure. *)
Definition error_kind {A} (r : result A) : option string :=
  match r with
  | Raise (LauncherError k _) => Some k
  | _ => None
  end.

Definition raised {A} (r : result A) : bool :=
  match r with Raise _ => true | Ok _ => false end.

(** ** The calls the orchestrator makes to the outside, with their outcome *)

Inductive event :=
| PathExists (path : string) (r : bool)
| LoadYaml (path : string) (r : result doc)
| LoadJson (path : string) (r : result doc)
| WriteJson (path : string) (d : doc) (r : result unit)
| GetLauncher (type provider : value) (failure : option exn)
| EnvironCheck (keys : list string)
| EnvironGet (key : string)
| LauncherCreate (config : doc) (r : result doc)
| LauncherWait (info : doc) (r : result unit)
| LauncherDescribe (info : doc) (r : result value)
| LauncherTest (info : doc) (test_cmd : string) (r : result value)
| LauncherDelete (info : doc) (r : result unit).

Definition is_write (ev : event) : bool :=
  match ev with WriteJson _ _ _ => true | _ => false end.
Definition is_create (ev : event) : bool :=
  match ev with LauncherCreate _ _ => true | _ => false end.
Definition is_test (ev : event) : bool :=
  match ev with LauncherTest _ _ _ => true | _ => false end.
Definition is_environ (ev : event) : bool :=
  match ev with EnvironCheck _ | EnvironGet _ => true | _ => false end.
Definition is_environ_get (ev : event) : bool :=
  match ev with EnvironGet _ => true | _ => false end.
Definition is_load_yaml (ev : event) : bool :=
  match ev with LoadYaml _ _ => true | _ => false end.

(** ** The launcher interface ([test_util.launch]) *)

Module Launcher.
Record t (Cloud : Type) := Make {
  create : doc → Cloud → result doc * Cloud;
  wait : doc → Cloud → result unit * Cloud;
  describe : doc → Cloud → result value * Cloud;
  test : doc → string → Cloud → result value * Cloud;
  delete : doc → Cloud → result unit * Cloud
}.
Arguments Make {Cloud}.
Arguments create {Cloud}.
Arguments wait {Cloud}.
Arguments describe {Cloud}.
Arguments test {Cloud}.
Arguments delete {Cloud}.
End Launcher.

(** ** Command line ([docopt] applied to the usage text) *)

Inductive command := Create | Wait | Describe | Pytest | Delete.

Record Args := {
  arg_create : bool;
  arg_wait : bool;
  arg_describe : bool;
  arg_pytest : bool;
  arg_delete : bool;
  arg_config_path : string;
  arg_info_path : string;
  arg_env : option string;
  arg_log_level : string;
  arg_pytest_extras : list string
}.

Definition command_eqb (a b : command) : bool :=
  match a, b with
  | Create, Create | Wait, Wait | Describe, Describe
  | Pytest, Pytest | Delete, Delete => true
  | _, _ => false
  end.

(** The dictionary [docopt] returns for one of the five usage lines, with
    the [default: ...] values of the option descriptions. *)
Definition docopt (cmd : command) (L c i e : option string)
    (extras : list string) : Args :=
  {| arg_create := command_eqb cmd Create;
     arg_wait := command_eqb cmd Wait;
     arg_describe := command_eqb cmd Describe;
     arg_pytest := command_eqb cmd Pytest;
     arg_delete := command_eqb cmd Delete;
     arg_config_path := default "config.yaml" c;
     arg_info_path := default "cluster_info.json" i;
     arg_env := e;
     arg_log_level := default "info" L;
     arg_pytest_extras := extras |}.

(** [args] is an invocation of the phase [cmd]: its flag and no other. *)
Definition invokes (cmd : command) (args : Args) : Prop :=
  arg_create args = command_eqb cmd Create ∧
  arg_wait args = command_eqb cmd Wait ∧
  arg_describe args = command_eqb cmd Describe ∧
  arg_pytest args = command_eqb cmd Pytest ∧
  arg_delete args = command_eqb cmd Delete.

(** ** Logging levels ([logging.CRITICAL] ...) *)

Definition CRITICAL : Z := 50.
Definition ERROR : Z := 40.
Definition WARNING : Z := 30.
Definition INFO : Z := 20.
Definition DEBUG : Z := 10.

(** The names [--log-level] documents. *)
Definition level_names : list string :=
  ["critical"; "error"; "warning"; "info"; "debug"; "trace"].

(** The standard levels in increasing order, and the one a step above. *)
Definition next_level (l : Z) : option Z :=
  if decide (l = DEBUG) then Some INFO
  else if decide (l = INFO) then Some WARNING
  else if decide (l = WARNING) then Some ERROR
  else if decide (l = ERROR) then Some CRITICAL
  else None.

(** Modelled from the spec: [test_util.launch.check_keys] is not under src/.
    The spec (4.1) has it fail with a [MissingKeys]-kind error naming every
    key of [key_list] that the document lacks, as a set difference, and do
    nothing else. *)
Definition check_keys {V} (user_dict : gmap string V) (key_list : list string)
    : result unit :=
  let missing := filter (λ k, k ∉ dom user_dict) key_list in
  match missing with
  | [] => Ok tt
  | _ => Raise (LauncherError "MissingKeys" (join ", " missing))
  end.

Section Orchestrator.

Context {File Cloud : Type}.

(** What an invocation can see and change. *)
Record world := World {
  files : gmap string File;
  environ : gmap string string;
  cloud : Cloud;
  root_handlers : bool;        (* the root logger has a handler *)
  log_levels : gmap string Z;
  stdout : list string
}.

(** The collaborators that are not under src/.  The loaders are taken on
    files whose content is a mapping at top level, as both documents of the
    data model are; a file that parses to a list, a scalar or null is not
    covered. *)
Record Externals := {
  load_yaml : string → gmap string File → result doc;
  load_json : string → gmap string File → result doc;
  write_json : string → doc → gmap string File → result unit * gmap string File;
  json_prettyprint : value → string;
  get_launcher : value → value → result (Launcher.t Cloud);
  repr : exn → string
}.

(** ** The monad: state, exceptions and the trace of outside calls *)

Definition M (A : Type) : Type := world → result A * world * list event.

Definition ret {A} (a : A) : M A := λ w, (Ok a, w, []).
Definition raise {A} (e : exn) : M A := λ w, (Raise e, w, []).
Definition bind {A B} (m : M A) (k : A → M B) : M B := λ w,
  match m w with
  | (Ok a, w', t) =>
      match k a w' with
      | (r, w'', t') => (r, w'', (t ++ t')%list)
      end
  | (Raise e, w', t) => (Raise e, w', t)
  end.

Notation "'let!' x ':=' m 'in' k" := (bind m (λ x, k))
  (at level 10, x name, m at level 100, k at level 200).
Notation "m ';;;' k" := (bind m (λ _, k))
  (at level 100, k at level 200, right associativity).

Definition outcome {A} (r : result A * world * list event) : result A := r.1.1.
Definition final {A} (r : result A * world * list event) : world := r.1.2.
Definition trace {A} (r : result A * world * list event) : list event := r.2.

Definition lift {A} (r : result A) : M A := λ w, (r, w, []).

(** The outcome [r] of what follows, after the calls [t] made so far. *)
Definition prepend {A} (t : list event) (r : result A * world * list event)
    : result A * world * list event :=
  (outcome r, final r, (t ++ trace r)%list).

(** [for e in l] collecting the results *)
Fixpoint for_each {A B} (f : A → M B) (l : list A) : M (list B) :=
  match l with
  | [] => ret []
  | x :: l' => let! y := f x in let! ys := for_each f l' in ret (y :: ys)
  end.

(** ** Primitives *)

(** [logging.basicConfig(format=..., level=level)]: nothing when the root
    logger has a handler already, else a handler is added and the level of
    the root logger set. *)
Definition basicConfig (level : Z) : M unit := λ w,
  if root_handlers w then (Ok tt, w, [])
  else
    (Ok tt,
     World (files w) (environ w) (cloud w) true
           (<["root" := level]> (log_levels w)) (stdout w), []).

Definition setLevel (module : string) (level : Z) : M unit := λ w,
  (Ok tt,
   World (files w) (environ w) (cloud w) (root_handlers w)
         (<[module := level]> (log_levels w)) (stdout w), []).

Definition print (line : string) : M unit := λ w,
  (Ok tt,
   World (files w) (environ w) (cloud w) (root_handlers w) (log_levels w)
         ((stdout w ++ [line])%list),
   []).

(** [os.path.exists] *)
Definition path_exists (path : string) : M bool := λ w,
  let r := bool_decide (is_Some (files w !! path)) in
  (Ok r, w, [PathExists path r]).

(** [d[k]] *)
Definition getitem (d : doc) (k : string) : M value :=
  match d !! k with
  | Some v => ret v
  | None => raise (OtherException "KeyError")
  end.

(** [check_keys(os.environ, keys)] *)
Definition check_environ (keys : list string) : M unit := λ w,
  (check_keys (environ w) keys, w, [EnvironCheck keys]).

(** [os.environ[e]] *)
Definition getenv (e : string) : M string := λ w,
  (match environ w !! e with
   | Some v => Ok v
   | None => Raise (OtherException "KeyError")
   end, w, [EnvironGet e]).

Variable X : Externals.

Definition do_load_yaml (path : string) : M doc := λ w,
  let r := load_yaml X path (files w) in (r, w, [LoadYaml path r]).

Definition do_load_json (path : string) : M doc := λ w,
  let r := load_json X path (files w) in (r, w, [LoadJson path r]).

Definition do_write_json (path : string) (d : doc) : M unit := λ w,
  let '(r, fs) := write_json X path d (files w) in
  (r, World fs (environ w) (cloud w) (root_handlers w) (log_levels w) (stdout w),
   [WriteJson path d r]).

Definition do_get_launcher (type provider : value) : M (Launcher.t Cloud) :=
  λ w,
  let r := get_launcher X type provider in
  (r, w, [GetLauncher type provider
            match r with Ok _ => None | Raise e => Some e end]).

(** A method call on a launcher: it acts on the provider's side only. *)
Definition call {A} (op : Cloud → result A * Cloud) (ev : result A → event)
    : M A := λ w,
  let '(r, c) := op (cloud w) in
  (r, World (files w) (environ w) c (root_handlers w) (log_levels w) (stdout w),
   [ev r]).

(** ** [_handle_logging] *)

Definition _handle_logging (log_level_str : string) : M unit :=
  let! log_level :=
    if String.eqb log_level_str "CRITICAL" then ret CRITICAL
    else if String.eqb log_level_str "ERROR" then ret ERROR
    else if String.eqb log_level_str "WARNING" then ret WARNING
    else if String.eqb log_level_str "INFO" then ret INFO
    else if String.eqb log_level_str "DEBUG" ||
            String.eqb log_level_str "TRACE" then ret DEBUG
    else raise (LauncherError "InvalidOption"
                  (log_level_str +:+ " is not a valid log level")) in
  basicConfig log_level ;;;
  if in_list log_level_str ["TRACE"; "CRITICAL"] then ret tt
  else
    (* now dampen the loud loggers *)
    for_each (λ module, setLevel module (log_level + 10))
             ["botocore"; "boto3"] ;;;
    ret tt.

(** ** [do_main] *)

Definition do_main (args : Args) : M (option Z) :=
  _handle_logging (upper (arg_log_level args)) ;;;
  if arg_create args then
    let info_path := arg_info_path args in
    let! ex := path_exists info_path in
    if ex then
      raise (LauncherError "InputConflict" "Target info path already exists!")
    else
      let! config := do_load_yaml (arg_config_path args) in
      lift (check_keys config
              ["type"; "provider_info";
               "this_is_a_temporary_config_format_do_not_put_in_production"]) ;;;
      let! ty := getitem config "type" in
      let! pi := getitem config "provider_info" in
      let! launcher := do_get_launcher ty pi in
      let! artifact :=
        call (Launcher.create launcher config) (LauncherCreate config) in
      do_write_json info_path artifact ;;;
      ret (Some 0)
  else
    let! info := do_load_json (arg_info_path args) in
    lift (check_keys info ["type"; "provider"]) ;;;
    let! ty := getitem info "type" in
    let! pr := getitem info "provider" in
    let! launcher := do_get_launcher ty pr in
    if arg_wait args then
      call (Launcher.wait launcher info) (LauncherWait info) ;;;
      print "Cluster is ready!" ;;;
      ret (Some 0)
    else if arg_describe args then
      let! d :=
        call (Launcher.describe launcher info) (LauncherDescribe info) in
      print (json_prettyprint X d) ;;;
      ret (Some 0)
    else if arg_pytest args then
      let test_cmd := "py.test" in
      let! test_cmd :=
        match arg_env args with
        | Some env =>
            if contains "="%char env then
              (* User is attempting to do an assigment with the option *)
              raise (LauncherError "OptionError"
                ("The '--env' option can only pass through environment variables "
                 +:+ "from the current environment. Set variables according to the shell being used."))
            else
              let var_list := split ","%char env in
              check_environ var_list ;;;
              let! assigns :=
                for_each (λ e, let! v := getenv e in ret (e +:+ "=" +:+ v))
                         var_list in
              ret (join " " assigns +:+ " " +:+ test_cmd)
        | None => ret test_cmd
        end in
      let test_cmd :=
        if (0 <? Z.of_nat (length (arg_pytest_extras args)))
        then test_cmd +:+ " " +:+ join " " (arg_pytest_extras args)
        else test_cmd in
      call (Launcher.test launcher info test_cmd)
           (LauncherTest info test_cmd) ;;;
      ret (Some 0)
    else if arg_delete args then
      call (Launcher.delete launcher info) (LauncherDelete info) ;;;
      ret (Some 0)
    else ret None.

(** ** [main], after [docopt] *)

Definition main (args : Args) : M (option Z) := λ w,
  match do_main args w with
  | (Raise ex, w', t) =>
      if handled ex then
        match (print "DC/OS Launch encountered an error!" ;;;
               print (repr X ex) ;;;
               ret (Some 1)) w' with
        | (r, w'', t') => (r, w'', (t ++ t')%list)
        end
      else (Raise ex, w', t)
  | r => r
  end.

(** [sys.exit(main())]: the status of the process.  An exception that
    reaches the interpreter ends it with a traceback and status 1. *)
Definition exit_code (r : result (option Z)) : Z :=
  match r with
  | Ok (Some n) => n
  | Ok None => 0
  | Raise _ => 1
  end.

End Orchestrator.

Arguments world : clear implicits.
Arguments Externals : clear implicits.

(** The levels [--log-level] accepts, compared without regard to case. *)
Definition accepted (level : string) : bool :=
  in_list (upper level) (map upper level_names).

(** The command [do_main] assembles for the launcher's [test]. *)
Definition assignment (env : gmap string string) (e : string) : string :=
  e +:+ "=" +:+ default EmptyString (env !! e).


(** [logging]'s level of a level name ([logging.getLevelName]). *)
Definition logging_level (name : string) : option Z :=
  if String.eqb name "CRITICAL" then Some CRITICAL
  else if String.eqb name "ERROR" then Some ERROR
  else if String.eqb name "WARNING" then Some WARNING
  else if String.eqb name "INFO" then Some INFO
  else if String.eqb name "DEBUG" then Some DEBUG
  else None.

(** [get_launcher] returned a launcher during the run. *)
Definition launcher_resolved (t : list event) : bool :=
  existsb (λ ev, match ev with GetLauncher _ _ None => true | _ => false end) t.

(** What [main] prints before the [repr] of the error. *)
Definition banner : string := "DC/OS Launch encountered an error!".


(** ** Specification sentences that are stronger than the code

    Each is the sentence as the specification words it, at one invocation
    [args] in one world [w]. *)

Section Worded.

Context {File Cloud : Type}.
Variable X : Externals File Cloud.
Variable args : Args.
Variable w : world File Cloud.

(** [create] on an existing info path fails with [InputConflict], writes
    nothing and never calls the launcher's [create]. *)
Definition create_conflict_worded : Prop :=
  invokes Create args →
  is_Some (files w !! arg_info_path args) →
  let r := do_main X args w in
  error_kind (outcome r) = Some "InputConflict" ∧
  Forall (λ ev, is_write ev = false ∧ is_create ev = false) (trace r).

(** The exit code of [pytest] is the status the launcher's [test]
    returned, or 1 on a set-up error. *)
Definition pytest_exit_worded : Prop :=
  invokes Pytest args →
  let r := main X args w in
  (∀ info cmd n,
     LauncherTest info cmd (Ok (VInt n)) ∈ trace r →
     raised (outcome (do_main X args w)) = false →
     exit_code (outcome r) = n) ∧
  (raised (outcome (do_main X args w)) = true → exit_code (outcome r) = 1).

(** Every failure is printed as a message and the error detail, with a
    non-zero exit code and no exception left to the interpreter. *)
Definition failure_report_worded : Prop :=
  ∀ ex, outcome (do_main X args w) = Raise ex →
  let r := main X args w in
  stdout (final r) = (stdout (final (do_main X args w)) ++ [banner; repr X ex])%list ∧
  exit_code (outcome r) ≠ 0 ∧
  raised (outcome r) = false.

(** [--env] with an [=] fails with [OptionError] before the environment
    is looked at. *)
Definition env_assignment_worded : Prop :=
  invokes Pytest args →
  ∀ env, arg_env args = Some env → contains "="%char env = true →
  let r := do_main X args w in
  error_kind (outcome r) = Some "OptionError" ∧
  Forall (λ ev, is_environ ev = false) (trace r).

(** [--env] naming an unset variable fails with [MissingKeys] before the
    assignments are built and before the launcher's [test] is called. *)
Definition env_missing_worded : Prop :=
  invokes Pytest args →
  ∀ env, arg_env args = Some env →
  ¬ Forall (λ e, is_Some (environ w !! e)) (split ","%char env) →
  let r := do_main X args w in
  error_kind (outcome r) = Some "MissingKeys" ∧
  Forall (λ ev, is_environ_get ev = false ∧ is_test ev = false) (trace r).

(** [create] on an existing info path fails with [InputConflict]
    whatever the configuration file is. *)
Definition create_check_first_worded : Prop :=
  invokes Create args →
  is_Some (files w !! arg_info_path args) →
  error_kind (outcome (do_main X args w)) = Some "InputConflict".

(** Up to the case of its letters, [level] is one of the six names. *)
Definition names_a_level (level : string) : bool :=
  in_list (lower level) level_names.

(** [--log-level] takes the six level names in any case, and any other
    value is a hard failure. *)
Definition log_level_worded : Prop :=
  names_a_level (arg_log_level args) = false →
  exit_code (outcome (main X args w)) ≠ 0.

End Worded.

(** ** A provider for examples: [type: fake]

    Files hold a document or text that does not parse; the cloud is the
    exit status the test suite has on the cluster, negative when the
    provider cannot provision. *)

Module Fake.

Inductive file := Document (d : doc) | Garbage.

Definition load (bad : exn) (path : string) (fs : gmap string file)
    : result doc :=
  match fs !! path with
  | Some (Document d) => Ok d
  | Some Garbage => Raise bad
  | None => Raise (OtherException "FileNotFoundError")
  end.

Definition launcher (provider : value) : Launcher.t Z :=
  Launcher.Make
    (λ config c,
       if c <? 0 then (Raise (LauncherError "ProvisionError" "no capacity"), c)
       else (Ok (<["type" := VStr "fake"]> (<["provider" := provider]> ∅)), c))
    (λ info c, (Ok tt, c))
    (λ info c, (Ok (VDict [("masters", VInt 1)]), c))
    (λ info test_cmd c, (Ok (VInt c), c))
    (λ info c, (Ok tt, c)).

Definition externals : Externals file Z :=
  {| load_yaml := load (YamlParseError "Invalid YAML");
     load_json := load (OtherException "ValueError");
     write_json := λ path d fs, (Ok tt, <[path := Document d]> fs);
     json_prettyprint := λ v, "{...}";
     get_launcher := λ type provider,
       match type with
       | VStr "fake" => Ok (launcher provider)
       | _ => Raise (LauncherError "UnsupportedProvider" "unknown type")
       end;
     repr := λ ex,
       match ex with
       | LauncherError error msg => error +:+ ": " +:+ msg
       | YamlParseError msg => "YamlParseError: " +:+ msg
       | OtherException name => name
       end |}.

Definition config : doc :=
  <["type" := VStr "fake"]>
  (<["provider_info" := VDict []]>
  (<["this_is_a_temporary_config_format_do_not_put_in_production" := VBool true]> ∅)).

Definition artifact : doc :=
  <["type" := VStr "fake"]> (<["provider" := VDict []]> ∅).

Definition unknown_artifact : doc :=
  <["type" := VStr "unknown-provider"]> (<["provider" := VDict []]> ∅).

(** Before [create]: only the configuration is there. *)
Definition fresh (status : Z) : world file Z :=
  World (<["config.yaml" := Document config]> ∅)
        (<["FOO" := "1"]> (<["BAR" := "two"]> ∅)) status false ∅ [].

(** After [create]: the artifact is there. *)
Definition created (info : doc) (status : Z) : world file Z :=
  World (<["cluster_info.json" := Document info]>
           (<["config.yaml" := Document config]> ∅))
        (<["FOO" := "1"]> (<["BAR" := "two"]> ∅)) status false ∅ [].

End Fake.

(** ** Invocations used in the examples *)

Module Examples.

Definition existing_debug : Args := docopt Create (Some "Debug") None None None [].
Definition existing_verbose : Args := docopt Create (Some "verbose") None None None [].
Definition no_config : Args := docopt Create None (Some "missing.yaml") None None [].
Definition no_config_loud : Args :=
  docopt Create (Some "loud") (Some "missing.yaml") None None [].
Definition first_create : Args := docopt Create None None None None [].
Definition describe : Args := docopt Describe (Some "error") None None None [].
Definition wait : Args := docopt Wait None None None None [].
Definition plain_pytest : Args := docopt Pytest None None None None [].
Definition pytest_assign : Args :=
  docopt Pytest (Some "critical") None None (Some "FOO=1") [].
Definition pytest_unset : Args :=
  docopt Pytest None None None (Some "FOO,BAZ") [].

End Examples.

(** ** Vocabulary for the properties of whole runs *)

(** The phase a launcher method belongs to and the document it is given. *)
Definition launcher_call (ev : event) : option (command * doc) :=
  match ev with
  | LauncherCreate config _ => Some (Create, config)
  | LauncherWait info _ => Some (Wait, info)
  | LauncherDescribe info _ => Some (Describe, info)
  | LauncherTest info _ _ => Some (Pytest, info)
  | LauncherDelete info _ => Some (Delete, info)
  | _ => None
  end.


(** The document a phase starts from: the configuration for [create], the
    artifact for the others. *)
Definition loaded_document {File Cloud} (X : Externals File Cloud)
    (cmd : command) (args : Args) (fs : gmap string File) : result doc :=
  match cmd with
  | Create => load_yaml X (arg_config_path args) fs
  | _ => load_json X (arg_info_path args) fs
  end.


(** ** More of the example provider *)

Module MoreExamples.

(** The example collaborators on a disk that cannot be written. *)
Definition read_only : Externals Fake.file Z :=
  {| load_yaml := load_yaml Fake.externals;
     load_json := load_json Fake.externals;
     write_json := λ path d fs, (Raise (OtherException "PermissionError"), fs);
     json_prettyprint := json_prettyprint Fake.externals;
     get_launcher := get_launcher Fake.externals;
     repr := repr Fake.externals |}.

Definition delete_cluster : Args := docopt Delete None None None None [].

(** The level [info] written with U+0131, the dotless i (bytes 196 177). *)
Definition dotless_info : string :=
  String "196"%char (String "177"%char "nfo").

Definition wait_dotless : Args :=
  docopt Wait (Some dotless_info) None None None [].

Definition wait_mixed_case : Args :=
  docopt Wait (Some "WaRnInG") None None None [].


Definition unsupported : exn :=
  LauncherError "UnsupportedProvider" "unknown type".

End MoreExamples.

(** * Properties *)

(** ** Strings and keys *)

Lemma in_list_elem s l : in_list s l = true ↔ s ∈ l.
Proof.
  unfold in_list. rewrite existsb_exists. split.
  - intros (x & Hx & E). apply String.eqb_eq in E. subst.
    by apply list_elem_of_In.
  - intros H. exists s. split; [by apply list_elem_of_In | apply String.eqb_refl].
Qed.

Lemma accepted_iff level :
  accepted level = true ↔ ∃ name, name ∈ level_names ∧ upper level = upper name.
Proof.
  unfold accepted. rewrite in_list_elem, list_elem_of_fmap.
  split; intros (name & H1 & H2); exists name; done.
Qed.





Lemma check_keys_ok {V} (d : gmap string V) l :
  check_keys d l = Ok tt ↔ Forall (λ k, is_Some (d !! k)) l.
Proof.
  unfold check_keys.
  destruct (filter (λ k, k ∉ dom d) l) as [|k m] eqn:E.
  - split; [intros _ | done].
    apply Forall_forall. intros k Hk. apply elem_of_dom.
    destruct (decide (k ∈ dom d)) as [|Hn]; [done|].
    assert (k ∈ filter (λ k, k ∉ dom d) l) as Hf
      by (apply list_elem_of_filter; done).
    rewrite E in Hf. by apply not_elem_of_nil in Hf.
  - split; [done|]. intros Hall.
    assert (k ∈ filter (λ k, k ∉ dom d) l) as Hf by (rewrite E; left).
    apply list_elem_of_filter in Hf as [Hn Hk].
    rewrite Forall_forall in Hall. apply Hall in Hk.
    by apply elem_of_dom in Hk.
Qed.

Lemma check_keys_missing {V} (d : gmap string V) l :
  ¬ Forall (λ k, is_Some (d !! k)) l →
  ∃ msg, check_keys d l = Raise (LauncherError "MissingKeys" msg).
Proof.
  intros Hn. pose proof (check_keys_ok d l) as Hok. unfold check_keys in *.
  destruct (filter (λ k, k ∉ dom d) l); [|by eexists].
  exfalso. apply Hn, Hok. done.
Qed.

Section Properties.

Context {File Cloud : Type}.
Implicit Types (w : world File Cloud) (X : Externals File Cloud).

(** ** Running the monad *)

Lemma bind_run {A B} (m : M (File:=File) (Cloud:=Cloud) A) (k : A → M B) w :
  bind m k w =
  match m w with
  | (Ok a, w', t) => prepend t (k a w')
  | (Raise e, w', t) => (Raise e, w', t)
  end.
Proof.
  unfold bind, prepend, outcome, final, trace.
  destruct (m w) as [[[a|e] w'] t]; [|done].
  by destruct (k a w') as [[r w''] t'].
Qed.

Lemma prepend_nil {A} (r : result A * world File Cloud * list event) :
  prepend [] r = r.
Proof. by destruct r as [[? ?] ?]. Qed.

(** ** [_handle_logging] *)

Lemma handle_logging_rejects s w :
  in_list s (map upper level_names) = false →
  _handle_logging s w =
  (Raise (LauncherError "InvalidOption" (s +:+ " is not a valid log level")),
   w, []).
Proof.
  intros H. unfold _handle_logging. rewrite bind_run.
  change (map upper level_names)
    with ["CRITICAL"; "ERROR"; "WARNING"; "INFO"; "DEBUG"; "TRACE"] in H.
  unfold in_list in H. simpl in H.
  repeat (apply orb_false_elim in H as [E H]; rewrite ?E; clear E).
  done.
Qed.

Lemma handle_logging_accepts s w :
  in_list s (map upper level_names) = true →
  ∃ levels,
    _handle_logging s w =
    (Ok tt, World (files w) (environ w) (cloud w) true levels (stdout w), []) ∧
    levels !! "root" =
      (if root_handlers w then log_levels w !! "root"
       else logging_level (if String.eqb s "TRACE" then "DEBUG" else s)) ∧
    if in_list s ["TRACE"; "CRITICAL"] then
      levels !! "botocore" = log_levels w !! "botocore" ∧
      levels !! "boto3" = log_levels w !! "boto3"
    else
      ∃ above, (logging_level s ≫= next_level) = Some above ∧
        levels !! "botocore" = Some above ∧ levels !! "boto3" = Some above.
Proof.
  intros H. apply in_list_elem in H.
  change (map upper level_names)
    with ["CRITICAL"; "ERROR"; "WARNING"; "INFO"; "DEBUG"; "TRACE"] in H.
  repeat (apply elem_of_cons in H as [-> | H]); [..| by apply elem_of_nil in H];
    destruct w as [fs env c [] lv out];
    eexists; (split; [reflexivity|]); simpl;
    (split; [by simplify_map_eq|]);
    try (split; by simplify_map_eq);
    eexists; (split; [reflexivity|]); split; by simplify_map_eq.
Qed.

(** [do_main] starts with the log level: it stops there, or goes on in a
    world that differs in the logging configuration only. *)
Ltac logging args w levels :=
  let Hacc := fresh "Hacc" in
  let Hrun := fresh "Hrun" in
  unfold do_main; rewrite bind_run;
  destruct (accepted (arg_log_level args)) eqn:Hacc;
  [ destruct (handle_logging_accepts _ w Hacc) as (levels & Hrun & _);
    rewrite Hrun; clear Hrun; rewrite prepend_nil
  | rewrite (handle_logging_rejects _ w Hacc) ].

(** Split on the innermost scrutinee of a stuck [match]. *)
Ltac split_on x :=
  lazymatch x with
  | context [match ?y with _ => _ end] => split_on y
  | _ => destruct x eqn:?
  end.

(** One step of [do_main]: run the next call and split on its outcome. *)
Ltac step :=
  first
  [ rewrite bind_run
  | progress unfold path_exists, do_load_yaml, do_load_json, do_write_json,
      do_get_launcher, call, lift, ret, raise, print, getitem, check_environ
  | progress cbn [outcome final trace prepend fst snd files environ cloud
                  root_handlers log_levels stdout raised error_kind app
                  launcher_resolved
                  existsb orb length Z.of_nat Z.ltb Z.compare]
  | match goal with
    | |- context [match ?x with _ => _ end] => split_on x
    end ].

(** Close a [Forall] over a trace that has been run to the end. *)
Ltac forall_trace :=
  repeat first
  [ apply Forall_nil_2
  | apply Forall_cons_2; [cbn; try done; auto |]
  | apply Forall_app_2
  | eapply Forall_impl; [eassumption | by intros []] ].

(** The comprehension that builds the assignments reads the environment
    and does nothing else. *)
Lemma for_each_getenv (l : list string) w r w' t :
  for_each (λ e, bind (getenv e) (λ v, ret (e +:+ "=" +:+ v))) l w = (r, w', t) →
  w' = w ∧ Forall (λ ev, is_environ_get ev = true) t ∧
  (Forall (λ e, is_Some (environ w !! e)) l →
   r = Ok (map (assignment (environ w)) l)).
Proof.
  revert r w' t. induction l as [|e l IH]; intros r w' t.
  - intros [= <- <- <-]. by repeat split.
  - cbn [for_each]. rewrite bind_run, bind_run. unfold getenv at 1.
    destruct (environ w !! e) as [v|] eqn:Hv.
    + cbn [ret prepend outcome final trace fst snd]. rewrite bind_run.
      destruct (for_each _ l w) as [[r0 w0] t0] eqn:Hrec.
      destruct (IH _ _ _ eq_refl) as (-> & Ht & Hr).
      destruct r0 as [ys|ex]; cbn; intros [= <- <- <-].
      * repeat split; [forall_trace|].
        intros Hall. apply Forall_cons in Hall as [_ Hall].
        specialize (Hr Hall). injection Hr as ->.
        cbn [outcome prepend ret fst]. f_equal. f_equal.
        unfold assignment. by rewrite Hv.
      * repeat split; [forall_trace|].
        intros Hall. apply Forall_cons in Hall as [_ Hall].
        by specialize (Hr Hall).
    + intros [= <- <- <-]. repeat split; [forall_trace|].
      intros Hall. apply Forall_cons in Hall as [[v Hv'] _]. congruence.
Qed.

Ltac use_getenv :=
  repeat match goal with
  | H : for_each _ _ _ = _ |- _ =>
      apply for_each_getenv in H as (-> & ? & ?)
  end.

Lemma create_conflict X args w :
  arg_create args = true →
  is_Some (files w !! arg_info_path args) →
  let r := do_main X args w in
  raised (outcome r) = true ∧
  trace r =
    (if accepted (arg_log_level args)
     then [PathExists (arg_info_path args) true] else []) ∧
  final r = (if accepted (arg_log_level args)
             then final (_handle_logging (upper (arg_log_level args)) w)
             else w) ∧
  files (final r) = files w ∧
  (accepted (arg_log_level args) = true →
   outcome r =
   Raise (LauncherError "InputConflict" "Target info path already exists!")).
Proof.
  intros Hc Hex. cbv zeta. unfold do_main. rewrite bind_run.
  destruct (accepted (arg_log_level args)) eqn:Hacc.
  - destruct (handle_logging_accepts _ w Hacc) as (levels & Hrun & _).
    rewrite Hrun, prepend_nil, Hc, bind_run. unfold path_exists.
    rewrite bool_decide_eq_true_2 by done. by repeat step.
  - rewrite (handle_logging_rejects _ w Hacc). by repeat split.
Qed.

(** Outside [create], nothing is written. *)
Lemma do_main_reads_only X args w :
  arg_create args = false →
  let r := do_main X args w in
  files (final r) = files w ∧ Forall (λ ev, is_write ev = false) (trace r).
Proof.
  intros Hc. cbv zeta. logging args w levels; [|by split].
  rewrite Hc. repeat step; use_getenv; (split; [done | forall_trace]).
Qed.

(** ** The create phase *)

(** C1 (as amended).  A create invocation whose info path already exists
    fails, writes nothing and never calls the launcher's create; the
    failure is InputConflict whenever the log level is an accepted one
    (an unaccepted level is reported first, as InvalidOption). *)
Theorem create_refuses_existing X args w :
  invokes Create args →
  is_Some (files w !! arg_info_path args) →
  let r := do_main X args w in
  raised (outcome r) = true ∧
  Forall (λ ev, is_write ev = false ∧ is_create ev = false) (trace r) ∧
  files (final r) = files w ∧
  (accepted (arg_log_level args) = true →
   outcome r =
   Raise (LauncherError "InputConflict" "Target info path already exists!")).
Proof.
  intros (Hc & _) Hex.
  destruct (create_conflict X args w Hc Hex) as (Hr & Ht & _ & Hf & Hk).
  cbv zeta. rewrite Ht. repeat split; [done | | done..].
  destruct (accepted _); forall_trace.
Qed.

(** C10 (as amended).  In the create phase the configuration is read only
    after the info path has been found absent; when the info path exists
    and the log level is accepted the failure is InputConflict and
    [load_yaml] is never called, whatever the configuration file holds. *)
Theorem create_checks_path_first X args w :
  invokes Create args →
  let r := do_main X args w in
  (∀ pre path res post,
     trace r = (pre ++ LoadYaml path res :: post)%list →
     PathExists (arg_info_path args) false ∈ pre) ∧
  (is_Some (files w !! arg_info_path args) →
   Forall (λ ev, is_load_yaml ev = false) (trace r) ∧
   (accepted (arg_log_level args) = true →
    outcome r =
    Raise (LauncherError "InputConflict" "Target info path already exists!"))).
Proof.
  intros (Hc & _). simpl in Hc. cbv zeta. split.
  - intros pre path res post.
    logging args w levels.
    + rewrite Hc. rewrite bind_run. unfold path_exists.
      destruct (bool_decide _) eqn:Hb.
      * repeat step. by destruct pre as [|? [|? ?]].
      * rewrite bind_run. unfold do_load_yaml.
        cbn [prepend outcome final trace fst snd files app].
        intros Ht. destruct pre as [|ev pre].
        -- destruct (load_yaml X _ _); discriminate Ht.
        -- assert (ev = PathExists (arg_info_path args) false) as ->.
           { destruct (load_yaml X _ _); by injection Ht. }
           left.
    + cbn. by destruct pre.
  - intros Hex.
    destruct (create_conflict X args w Hc Hex) as (_ & Ht & _ & _ & Hk).
    rewrite Ht. split; [|done]. destruct (accepted _); forall_trace.
Qed.

(** C9.  In the create phase the info path is the only path written, and
    only with the document a successful launcher create returned; when the
    launcher's create raises, that error is the outcome, nothing is
    written and the info path still does not exist. *)
Theorem create_failure_writes_nothing X args w :
  invokes Create args →
  let r := do_main X args w in
  (∀ path d res,
     WriteJson path d res ∈ trace r →
     path = arg_info_path args ∧
     ∃ config, LauncherCreate config (Ok d) ∈ trace r) ∧
  (∀ config ex,
     LauncherCreate config (Raise ex) ∈ trace r →
     outcome r = Raise ex ∧
     Forall (λ ev, is_write ev = false) (trace r) ∧
     files (final r) = files w ∧
     files (final r) !! arg_info_path args = None).
Proof.
  intros (Hc & _). simpl in Hc. cbv zeta.
  logging args w levels.
  2:{ cbn. split; intros; exfalso; eapply not_elem_of_nil; eauto. }
  rewrite Hc. rewrite bind_run. unfold path_exists.
  destruct (bool_decide _) eqn:Hb.
  { repeat step. split; intros *; rewrite list_elem_of_singleton; done. }
  apply bool_decide_eq_false in Hb.
  assert (files w !! arg_info_path args = None) as Hnone.
  { by apply eq_None_not_Some. }
  repeat step;
    (split;
     [ intros path d res Hin | intros config ex Hin ];
     repeat (apply elem_of_cons in Hin as [Hin | Hin]; [try discriminate Hin|]);
     try (by apply elem_of_nil in Hin)).
  - injection Hin as -> -> ->. split; [done|].
    eexists. do 3 right. left.
  - injection Hin as -> -> ->. split; [done|].
    eexists. do 3 right. left.
  - injection Hin as -> ->. repeat split; [forall_trace | done..].
Qed.

(** ** Phases other than create *)

(** C8.  An invocation of describe, or of any phase other than create,
    leaves every file as it was: neither [do_main] nor [main] calls
    [write_json]. *)
Theorem describe_leaves_artifact X cmd args w :
  invokes cmd args →
  cmd ≠ Create →
  let r := main X args w in
  files (final r) = files w ∧
  files (final r) !! arg_info_path args = files w !! arg_info_path args ∧
  Forall (λ ev, is_write ev = false) (trace r) ∧
  Forall (λ ev, is_write ev = false) (trace (do_main X args w)).
Proof.
  intros (Hc & _) Hcmd.
  assert (arg_create args = false) as Hf by (rewrite Hc; by destruct cmd).
  destruct (do_main_reads_only X args w Hf) as (Hfiles & Htrace).
  cbv zeta. unfold main.
  destruct (do_main X args w) as [[[x|ex] w'] t] eqn:Hrun;
    cbn [final outcome trace fst snd] in *.
  - by rewrite Hfiles.
  - destruct (handled ex); cbn [final outcome trace fst snd].
    + repeat step. rewrite Hfiles. repeat split; [forall_trace | done].
    + by rewrite Hfiles.
Qed.

(** ** The test phase *)

Lemma pytest_flags args :
  invokes Pytest args →
  arg_create args = false ∧ arg_wait args = false ∧
  arg_describe args = false ∧ arg_pytest args = true.
Proof. intros (? & ? & ? & ? & ?). done. Qed.

(** C5 (as amended).  A pytest invocation whose --env holds an [=] fails
    without any look at the environment and without a call of the
    launcher's test; once the artifact has been loaded, validated and
    resolved to a launcher the failure is OptionError (before that, the
    log level, the artifact or the provider is reported instead). *)
Theorem env_assignment_refused X args w env :
  invokes Pytest args →
  arg_env args = Some env →
  contains "="%char env = true →
  let r := do_main X args w in
  raised (outcome r) = true ∧
  Forall (λ ev, is_environ ev = false ∧ is_test ev = false) (trace r) ∧
  (launcher_resolved (trace r) = true →
   error_kind (outcome r) = Some "OptionError").
Proof.
  intros (Hc & Hw & Hd & Hp)%pytest_flags Henv Heq. cbv zeta.
  logging args w levels; [|by repeat split].
  rewrite Hc, Hw, Hd, Hp, Henv, Heq.
  repeat step; repeat split; try done; forall_trace.
Qed.




Lemma pytest_test_called X args w :
  invokes Pytest args →
  raised (outcome (do_main X args w)) = false →
  outcome (do_main X args w) = Ok (Some 0) ∧
  ∃ info cmd v, LauncherTest info cmd (Ok v) ∈ trace (do_main X args w).
Proof.
  intros (Hc & Hw & Hd & Hp)%pytest_flags.
  logging args w levels; [|done].
  rewrite Hc, Hw, Hd, Hp.
  repeat step; try done; intros _; (split; [done|]); do 3 eexists;
    repeat first
      [ apply list_elem_of_here
      | apply list_elem_of_further
      | apply elem_of_app; right ].
Qed.


(** C6 (as amended).  A pytest invocation whose --env names a variable
    that is not set fails without reading any value from the environment
    and without a call of the launcher's test; once the launcher is
    resolved and --env holds no [=], the failure is the MissingKeys error
    of the check of the environment. *)
Theorem env_missing_refused X args w env :
  invokes Pytest args →
  arg_env args = Some env →
  ¬ Forall (λ e, is_Some (environ w !! e)) (split ","%char env) →
  let r := do_main X args w in
  raised (outcome r) = true ∧
  Forall (λ ev, is_environ_get ev = false ∧ is_test ev = false) (trace r) ∧
  (launcher_resolved (trace r) = true →
   contains "="%char env = false →
   error_kind (outcome r) = Some "MissingKeys" ∧
   EnvironCheck (split ","%char env) ∈ trace r).
Proof.
  intros (Hc & Hw & Hd & Hp)%pytest_flags Henv Hmiss. cbv zeta.
  destruct (check_keys_missing _ _ Hmiss) as [msg Hck].
  logging args w levels; [|by repeat split].
  rewrite Hc, Hw, Hd, Hp, Henv.
  repeat step; try congruence; repeat split; try done; try forall_trace.
  all: try (intros; congruence).
  all: intros; repeat first
      [ apply list_elem_of_here
      | apply list_elem_of_further ].
Qed.

(** C2 (as amended).  A pytest invocation in which nothing raises has
    called the launcher's test and exits with 0, whatever that call
    returned; one in which something raises exits with 1. *)
Theorem pytest_exit_code X args w :
  invokes Pytest args →
  let r := main X args w in
  (raised (outcome (do_main X args w)) = false →
   exit_code (outcome r) = 0 ∧
   ∃ info cmd v, LauncherTest info cmd (Ok v) ∈ trace r) ∧
  (raised (outcome (do_main X args w)) = true →
   exit_code (outcome r) = 1).
Proof.
  intros Hinv. cbv zeta. split.
  - intros Hok.
    destruct (pytest_test_called X args w Hinv Hok) as (Hout & Hin).
    unfold main.
    destruct (do_main X args w) as [[[x|ex] w'] t]; [|done].
    cbn in Hout. injection Hout as ->. done.
  - unfold main.
    destruct (do_main X args w) as [[[x|ex] w'] t]; [done|].
    intros _. destruct (handled ex); [|done]. by repeat step.
Qed.

(** C3 (as amended).  When [do_main] raises a LauncherError or a
    YamlParseError, [main] prints the banner and the [repr] of the error
    after what was already printed, makes no further call and returns 1;
    an exception of any other class is not caught and passes through
    [main] unchanged.  The exit code is 1 in both cases. *)
Theorem main_reports_handled_errors X args w ex :
  outcome (do_main X args w) = Raise ex →
  let d := do_main X args w in
  let r := main X args w in
  exit_code (outcome r) = 1 ∧
  trace r = trace d ∧
  files (final r) = files (final d) ∧
  if handled ex then
    outcome r = Ok (Some 1) ∧
    stdout (final r) = (stdout (final d) ++ [banner; repr X ex])%list
  else r = d.
Proof.
  cbv zeta. unfold main.
  destruct (do_main X args w) as [[[x|e] w'] t]; [done|].
  intros [= ->]. destruct (handled ex) eqn:Hh.
  - repeat step. rewrite app_nil_r, <- app_assoc. done.
  - done.
Qed.

(** * Whole runs: what is called, in which order, and what is left behind *)

Lemma create_success_run X args w x :
  invokes Create args →
  outcome (do_main X args w) = Ok x →
  let r := do_main X args w in
  x = Some 0 ∧
  files w !! arg_info_path args = None ∧
  ∃ config ty pi l d,
    config !! "type" = Some ty ∧ config !! "provider_info" = Some pi ∧
    get_launcher X ty pi = Ok l ∧
    Launcher.create l config (cloud w) = (Ok d, cloud (final r)) ∧
    write_json X (arg_info_path args) d (files w) = (Ok tt, files (final r)) ∧
    trace r =
      [PathExists (arg_info_path args) false;
       LoadYaml (arg_config_path args) (Ok config);
       GetLauncher ty pi None;
       LauncherCreate config (Ok d);
       WriteJson (arg_info_path args) d (Ok tt)].
Proof.
  intros (Hc & _). simpl in Hc. cbv zeta.
  logging args w levels; [|done].
  rewrite Hc, bind_run. unfold path_exists.
  destruct (bool_decide _) eqn:Hb; [by repeat step|].
  apply bool_decide_eq_false, eq_None_not_Some in Hb.
  repeat step; try done.
  intros [= <-]. split; [done|]. split; [done|].
  repeat match goal with u : unit |- _ => destruct u end.
  do 5 eexists. repeat split; eauto.
Qed.

(** X1.  A create that returns has made exactly five calls, in this order: the
    existence check (absent), [load_yaml], [get_launcher] on the type and
    provider_info of the configuration, the launcher's create on the
    configuration, and [write_json] of its result to the info path.  It
    returns 0; the files are those [write_json] left and the provider side
    is as create left it. *)
Theorem create_success_calls X args w x :
  invokes Create args →
  outcome (do_main X args w) = Ok x →
  let r := do_main X args w in
  x = Some 0 ∧
  files w !! arg_info_path args = None ∧
  ∃ config ty pi l d,
    config !! "type" = Some ty ∧ config !! "provider_info" = Some pi ∧
    get_launcher X ty pi = Ok l ∧
    Launcher.create l config (cloud w) = (Ok d, cloud (final r)) ∧
    write_json X (arg_info_path args) d (files w) = (Ok tt, files (final r)) ∧
    trace r =
      [PathExists (arg_info_path args) false;
       LoadYaml (arg_config_path args) (Ok config);
       GetLauncher ty pi None;
       LauncherCreate config (Ok d);
       WriteJson (arg_info_path args) d (Ok tt)].
Proof. exact (create_success_run X args w x). Qed.

(** X2.  When [write_json] fails in the create phase its error is the outcome
    of the run, although the launcher's create had returned: the cluster has
    been provisioned and its artifact is not recorded. *)
Theorem create_write_failure X args w path d ex :
  invokes Create args →
  WriteJson path d (Raise ex) ∈ trace (do_main X args w) →
  let r := do_main X args w in
  outcome r = Raise ex ∧
  path = arg_info_path args ∧
  ∃ config, LauncherCreate config (Ok d) ∈ trace r.
Proof.
  intros (Hc & _). simpl in Hc. cbv zeta.
  logging args w levels; [|by intros ?%elem_of_nil].
  rewrite Hc, bind_run. unfold path_exists.
  destruct (bool_decide _) eqn:Hb.
  { repeat step. by intros ?%list_elem_of_singleton. }
  repeat step; intros Hin;
    repeat (apply elem_of_cons in Hin as [Hin | Hin]; [try discriminate Hin|]);
    try (by apply elem_of_nil in Hin).
  injection Hin as -> -> ->. repeat split.
  eexists. do 3 right. left.
Qed.



(** X4.  What [do_main] prints: a wait that returns prints the confirmation, a
    describe that returns prints the pretty-printed description the launcher
    gave, and nothing else is printed, in particular nothing when the run
    raises. *)
Theorem do_main_output X cmd args w :
  invokes cmd args →
  let r := do_main X args w in
  (raised (outcome r) = true → stdout (final r) = stdout w) ∧
  (raised (outcome r) = false →
   match cmd with
   | Wait => stdout (final r) = (stdout w ++ ["Cluster is ready!"])%list
   | Describe =>
       ∃ info d,
         LauncherDescribe info (Ok d) ∈ trace r ∧
         stdout (final r) = (stdout w ++ [json_prettyprint X d])%list
   | _ => stdout (final r) = stdout w
   end).
Proof.
  intros (Hc & Hw & Hd & Hp & Hdel). cbv zeta.
  logging args w levels; [|done].
  rewrite Hc, Hw, Hd, Hp, Hdel.
  destruct cmd; cbn [command_eqb]; repeat step; use_getenv;
    (split; [try done | try done]); intros _.
  do 2 eexists. split; [|done].
  repeat first [ apply list_elem_of_here | apply list_elem_of_further ].
Qed.

Lemma do_main_returns_zero X cmd args w x :
  invokes cmd args →
  outcome (do_main X args w) = Ok x → x = Some 0.
Proof.
  intros (Hc & Hw & Hd & Hp & Hdel).
  logging args w levels; [|done].
  rewrite Hc, Hw, Hd, Hp, Hdel.
  destruct cmd; cbn [command_eqb]; repeat step; try done; by intros [= <-].
Qed.

(** X5.  The exit code is 0 or 1, and it is 0 exactly when [do_main] does not
    raise; in that case [main] adds nothing to the run: no call and no
    output. *)
Theorem exit_code_zero_iff_no_error X cmd args w :
  invokes cmd args →
  let d := do_main X args w in
  let r := main X args w in
  (exit_code (outcome r) = 0 ∨ exit_code (outcome r) = 1) ∧
  (exit_code (outcome r) = 0 ↔ raised (outcome d) = false) ∧
  (raised (outcome d) = false → r = d ∧ outcome r = Ok (Some 0)).
Proof.
  intros Hinv. cbv zeta.
  pose proof (do_main_returns_zero X cmd args w) as Hzero.
  unfold main.
  destruct (do_main X args w) as [[[x|ex] w'] t]; cbn in *.
  - rewrite (Hzero x Hinv eq_refl). cbn. repeat split; auto.
  - destruct (handled ex); repeat step; cbn; repeat split; auto; done.
Qed.



(** ** The names taken from [--env] *)





(** ** What a run leaves untouched *)

Lemma main_keeps X args w :
  let d := do_main X args w in
  let r := main X args w in
  files (final r) = files (final d) ∧ environ (final r) = environ (final d) ∧
  cloud (final r) = cloud (final d) ∧ log_levels (final r) = log_levels (final d) ∧
  trace r = trace d ∧
  ∃ out, stdout (final r) = (stdout (final d) ++ out)%list.
Proof.
  cbv zeta. unfold main.
  destruct (do_main X args w) as [[[x|ex] w'] t]; cbn.
  - repeat split. exists []. by rewrite app_nil_r.
  - destruct (handled ex); repeat step; cbn.
    + rewrite app_nil_r. repeat split. eexists. by rewrite <- app_assoc.
    + repeat split. exists []. by rewrite app_nil_r.
Qed.

(** ** The log level *)

Lemma upper_lower_ascii c : upper_ascii (lower_ascii c) = upper_ascii c.
Proof. by destruct c as [[] [] [] [] [] [] [] []]. Qed.

Lemma lower_upper_ascii c : lower_ascii (upper_ascii c) = lower_ascii c.
Proof. by destruct c as [[] [] [] [] [] [] [] []]. Qed.

Lemma lower_ascii_byte c : ascii_byte c = true → ascii_byte (lower_ascii c) = true.
Proof. by destruct c as [[] [] [] [] [] [] [] []]. Qed.

(** On ASCII text [upper] and [lower] undo nothing of each other but the
    case. *)
Lemma lower_upper s : is_ascii s = true → lower (upper s) = lower s.
Proof.
  induction s as [|c s IH]; [done|]. cbn [is_ascii upper].
  intros [Hc Hs]%andb_prop. rewrite Hc. cbn [lower].
  by rewrite lower_upper_ascii, IH.
Qed.

Lemma upper_lower s : is_ascii s = true → upper (lower s) = upper s.
Proof.
  induction s as [|c s IH]; [done|]. cbn [is_ascii upper lower].
  intros [Hc Hs]%andb_prop. rewrite Hc, (lower_ascii_byte c Hc).
  by rewrite upper_lower_ascii, IH.
Qed.

Lemma accepted_ascii level :
  is_ascii level = true →
  accepted level = true ↔ lower level ∈ level_names.
Proof.
  intros Hascii. rewrite accepted_iff. split.
  - intros (name & Hname & Heq).
    assert (is_ascii name = true ∧ lower name = name) as [Hn Hl].
    { unfold level_names in Hname.
      repeat (apply elem_of_cons in Hname as [-> | Hname]); [done..|].
      by apply elem_of_nil in Hname. }
    apply (f_equal lower) in Heq.
    rewrite (lower_upper _ Hascii), (lower_upper _ Hn), Hl in Heq.
    by rewrite Heq.
  - intros Hin. exists (lower level). split; [done|].
    by rewrite upper_lower.
Qed.

(** After the log level has been handled nothing in [do_main] touches the
    logging configuration. *)
Lemma logging_kept X args w :
  let l := _handle_logging (upper (arg_log_level args)) w in
  log_levels (final (do_main X args w)) = log_levels (final l) ∧
  root_handlers (final (do_main X args w)) = root_handlers (final l).
Proof.
  cbv zeta. unfold do_main. rewrite bind_run.
  destruct (accepted (arg_log_level args)) eqn:Hacc.
  - destruct (handle_logging_accepts _ w Hacc) as (levels & Hrun & _).
    rewrite Hrun, prepend_nil. repeat step; use_getenv; by split.
  - by rewrite (handle_logging_rejects _ w Hacc).
Qed.

Lemma main_keeps_handlers X args w :
  root_handlers (final (main X args w)) =
  root_handlers (final (do_main X args w)).
Proof.
  unfold main. destruct (do_main X args w) as [[[x|ex] w'] t]; [done|].
  destruct (handled ex); by repeat step.
Qed.

(** With an accepted level [do_main] goes on to the phase: its first call
    is the existence check of the info path for create, and the load of
    the artifact otherwise. *)
Lemma accepted_goes_on X args w :
  accepted (arg_log_level args) = true →
  ∃ t, trace (do_main X args w) =
       (if arg_create args
        then PathExists (arg_info_path args)
               (bool_decide (is_Some (files w !! arg_info_path args)))
        else LoadJson (arg_info_path args)
               (load_json X (arg_info_path args) (files w))) :: t.
Proof.
  intros Hacc. unfold do_main. rewrite bind_run.
  destruct (handle_logging_accepts _ w Hacc) as (levels & Hrun & _).
  rewrite Hrun, prepend_nil.
  destruct (arg_create args); rewrite bind_run;
    unfold path_exists, do_load_json; cbn [files].
  - by eexists.
  - destruct (load_json X _ _); by eexists.
Qed.

(** C4 (as amended).  Without -L the level is info, which is accepted.
    [do_main] accepts a level exactly when its [str.upper] is one of
    CRITICAL, ERROR, WARNING, INFO, DEBUG and TRACE; for an ASCII level
    that is exactly when the level is one of the six names up to case.  A
    level that is not accepted ends [do_main] with InvalidOption before any
    call and with the logging configuration untouched, and [main] returns
    1.  With an accepted level the run goes on to the phase, and however it
    ends: the root logger has a handler, and its level is the requested
    one (DEBUG for trace) unless it had a handler before; for trace and
    critical the levels of botocore and boto3 stay as they were, for the
    other levels both are set one step above the requested level. *)
Theorem log_level_handling X args w :
  let level := arg_log_level args in
  let d := do_main X args w in
  let r := main X args w in
  (∀ cmd c i e extras, arg_log_level (docopt cmd None c i e extras) = "info") ∧
  accepted "info" = true ∧
  (accepted level = true ↔
   upper level ∈ ["CRITICAL"; "ERROR"; "WARNING"; "INFO"; "DEBUG"; "TRACE"]) ∧
  (is_ascii level = true → (accepted level = true ↔ lower level ∈ level_names)) ∧
  (accepted level = false →
   error_kind (outcome d) = Some "InvalidOption" ∧ trace d = [] ∧ final d = w ∧
   outcome r = Ok (Some 1) ∧ trace r = [] ∧
   log_levels (final r) = log_levels w ∧
   root_handlers (final r) = root_handlers w) ∧
  (accepted level = true →
   (∃ t, trace d =
         (if arg_create args
          then PathExists (arg_info_path args)
                 (bool_decide (is_Some (files w !! arg_info_path args)))
          else LoadJson (arg_info_path args)
                 (load_json X (arg_info_path args) (files w))) :: t) ∧
   let levels := log_levels (final r) in
   root_handlers (final r) = true ∧
   levels !! "root" =
     (if root_handlers w then log_levels w !! "root"
      else logging_level
             (if String.eqb (upper level) "TRACE" then "DEBUG" else upper level)) ∧
   if in_list (upper level) ["TRACE"; "CRITICAL"] then
     levels !! "botocore" = log_levels w !! "botocore" ∧
     levels !! "boto3" = log_levels w !! "boto3"
   else
     ∃ requested above,
       logging_level (upper level) = Some requested ∧
       next_level requested = Some above ∧
       levels !! "botocore" = Some above ∧
       levels !! "boto3" = Some above).
Proof.
  cbv zeta. split; [done|]. split; [done|].
  split. { unfold accepted. by rewrite in_list_elem. }
  split; [apply accepted_ascii|].
  destruct (main_keeps X args w) as (_ & _ & _ & Hlv & Htr & _).
  pose proof (main_keeps_handlers X args w) as Hh.
  destruct (logging_kept X args w) as (Hlv' & Hh').
  rewrite Hlv, Htr, Hh, Hlv', Hh'. clear Hlv Htr Hh Hlv' Hh'.
  destruct (accepted (arg_log_level args)) eqn:Hacc.
  - split; [done|]. intros _.
    split; [by apply accepted_goes_on|].
    destruct (handle_logging_accepts _ w Hacc) as (levels & Hrun & Hroot & Hd).
    rewrite Hrun. cbn [final fst snd log_levels root_handlers].
    split; [done|]. split; [done|].
    destruct (in_list (upper (arg_log_level args)) ["TRACE"; "CRITICAL"]);
      [done|].
    destruct Hd as (above & Habove & Hb & Hb3).
    destruct (logging_level (upper (arg_log_level args))) as [requested|];
      [|done].
    by exists requested, above.
  - split; [|done]. intros _.
    unfold main, do_main. rewrite bind_run.
    rewrite (handle_logging_rejects _ w Hacc). cbn [handled].
    by repeat step.
Qed.

(** X9.  Outside the test phase, and in a test phase without [--env], the
    environment is not looked at. *)
Theorem environment_only_for_env_option X cmd args w :
  invokes cmd args →
  cmd ≠ Pytest ∨ arg_env args = None →
  Forall (λ ev, is_environ ev = false) (trace (main X args w)).
Proof.
  intros (Hc & Hw & Hd & Hp & Hdel) Hno.
  destruct (main_keeps X args w) as (_ & _ & _ & _ & -> & _).
  logging args w levels; [|by constructor].
  rewrite Hc, Hw, Hd, Hp, Hdel.
  destruct cmd; cbn [command_eqb];
    try (destruct Hno as [Hno | Hno]; [done | rewrite Hno]);
    repeat step; forall_trace.
Qed.

(** ** Failures before the launcher is reached *)

(** X10.  When the document of the phase cannot be loaded (the configuration
    for create, the artifact for the others), the loader's error is the
    outcome of [do_main], the load is the last call made, and files,
    provider side and output are as before. *)
Theorem load_failure_stops X cmd args w ex :
  invokes cmd args →
  accepted (arg_log_level args) = true →
  (cmd = Create → files w !! arg_info_path args = None) →
  loaded_document X cmd args (files w) = Raise ex →
  let r := do_main X args w in
  outcome r = Raise ex ∧
  trace r =
    match cmd with
    | Create => [PathExists (arg_info_path args) false;
                 LoadYaml (arg_config_path args) (Raise ex)]
    | _ => [LoadJson (arg_info_path args) (Raise ex)]
    end ∧
  files (final r) = files w ∧ cloud (final r) = cloud w ∧
  stdout (final r) = stdout w.
Proof.
  intros (Hc & Hw & Hd & Hp & Hdel) Hacc Hfree Hload. cbv zeta.
  unfold do_main. rewrite bind_run.
  destruct (handle_logging_accepts _ w Hacc) as (levels & Hrun & _).
  rewrite Hrun, prepend_nil, Hc.
  destruct cmd; cbn [command_eqb loaded_document] in *;
    rewrite bind_run;
    unfold path_exists, do_load_yaml, do_load_json; cbn [files];
    rewrite ?Hfree, ?Hload by done; [|done..].
  rewrite bool_decide_eq_false_2 by (by intros [? ?]).
  cbn [prepend outcome final trace fst snd]. rewrite bind_run. cbn [files].
  by rewrite Hload.
Qed.

(** X11.  When [get_launcher] fails, its error is the outcome of [do_main]; no
    method of a launcher is called, nothing is written and the provider
    side is as before. *)
Theorem unresolved_provider_stops X args w ty pr ex :
  GetLauncher ty pr (Some ex) ∈ trace (do_main X args w) →
  let r := do_main X args w in
  outcome r = Raise ex ∧
  omap launcher_call (trace r) = [] ∧
  Forall (λ ev, is_write ev = false) (trace r) ∧
  files (final r) = files w ∧ cloud (final r) = cloud w.
Proof.
  cbv zeta. logging args w levels; [|by intros ?%elem_of_nil].
  repeat step; use_getenv; intros Hin;
    repeat first
      [ apply elem_of_cons in Hin as [Hin | Hin]; [try discriminate Hin|]
      | apply elem_of_app in Hin as [Hin | Hin]
      | by apply elem_of_nil in Hin
      | by (eapply Forall_forall in Hin; [|eassumption]) ].
  all: injection Hin as -> -> ->; repeat split; forall_trace.
Qed.

(** ** Phases one after the other *)

(** X12.  If a successful [write_json] leaves a file at the path it wrote, a
    create that returned is followed by the refusal of every further create
    on the same info path: InputConflict, after the existence check alone. *)
Theorem create_twice_refused X first second w :
  (∀ path d fs fs', write_json X path d fs = (Ok tt, fs') → is_Some (fs' !! path)) →
  invokes Create first →
  invokes Create second →
  arg_info_path second = arg_info_path first →
  accepted (arg_log_level second) = true →
  raised (outcome (do_main X first w)) = false →
  let w1 := final (main X first w) in
  let r := do_main X second w1 in
  outcome r =
    Raise (LauncherError "InputConflict" "Target info path already exists!") ∧
  trace r = [PathExists (arg_info_path second) true] ∧
  files (final r) = files w1.
Proof.
  intros Hwrite H1 H2 Hpath Hacc Hok. cbv zeta.
  destruct (outcome (do_main X first w)) as [x|] eqn:Hout; [|done].
  destruct (create_success_run X first w x H1 Hout)
    as (_ & _ & config & ty & pi & l & d & _ & _ & _ & _ & Hw & _).
  apply Hwrite in Hw.
  destruct (main_keeps X first w) as (Hf & _).
  destruct H2 as (Hc & _). simpl in Hc.
  assert (is_Some (files (final (main X first w)) !! arg_info_path second)) as Hex
    by (by rewrite Hf, Hpath).
  destruct (create_conflict X second _ Hc Hex) as (_ & Ht & _ & Hfiles & Hk).
  rewrite Hacc in Ht. auto.
Qed.

(** X13.  No phase other than create makes the info path free again: after a
    wait, describe, pytest or delete (whatever its outcome) a create on an
    info path that existed before is still refused with InputConflict. *)
Theorem info_path_stays_taken X cmd args second w :
  invokes cmd args →
  cmd ≠ Create →
  invokes Create second →
  is_Some (files w !! arg_info_path second) →
  accepted (arg_log_level second) = true →
  let r := do_main X second (final (main X args w)) in
  outcome r =
    Raise (LauncherError "InputConflict" "Target info path already exists!") ∧
  trace r = [PathExists (arg_info_path second) true].
Proof.
  intros (Hc & _) Hcmd (Hc2 & _) Hex Hacc. cbv zeta.
  assert (arg_create args = false) as Hf by (rewrite Hc; by destruct cmd).
  destruct (do_main_reads_only X args w Hf) as (Hfiles & _).
  destruct (main_keeps X args w) as (Hm & _).
  assert (is_Some (files (final (main X args w)) !! arg_info_path second)) as Hex'
    by (by rewrite Hm, Hfiles).
  destruct (create_conflict X second _ Hc2 Hex') as (_ & Ht & _ & _ & Hk).
  rewrite Hacc in Ht. auto.
Qed.

End Properties.

(** * The properties on the example provider *)

Lemma docopt_invokes cmd L c i e extras :
  invokes cmd (docopt cmd L c i e extras).
Proof. by repeat split. Qed.

Lemma create_refuses_existing_witness :
  invokes Create Examples.existing_debug ∧
  is_Some (files (Fake.created Fake.artifact 0)
             !! arg_info_path Examples.existing_debug) ∧
  outcome (do_main Fake.externals Examples.existing_debug
             (Fake.created Fake.artifact 0)) =
  Raise (LauncherError "InputConflict" "Target info path already exists!").
Proof.
  assert (invokes Create Examples.existing_debug) as H1 by apply docopt_invokes.
  assert (is_Some (files (Fake.created Fake.artifact 0)
                     !! arg_info_path Examples.existing_debug)) as H2
    by (eexists; vm_compute; reflexivity).
  split; [exact H1|]. split; [exact H2|].
  exact (proj2 (proj2 (proj2
    (create_refuses_existing Fake.externals _ _ H1 H2))) eq_refl).
Defined.

(** C1 as worded fails: with [-L verbose] the existing info path is never
    looked at and the error is InvalidOption. *)
Lemma create_conflict_counterexample :
  ¬ create_conflict_worded Fake.externals Examples.existing_verbose
      (Fake.created Fake.artifact 0).
Proof.
  intros H. destruct H as [Hk _].
  - apply docopt_invokes.
  - eexists. vm_compute. reflexivity.
  - vm_compute in Hk. discriminate Hk.
Qed.

Lemma create_checks_path_first_witness :
  invokes Create Examples.no_config ∧
  is_Some (files (Fake.created Fake.artifact 0)
             !! arg_info_path Examples.no_config) ∧
  outcome (do_main Fake.externals Examples.no_config
             (Fake.created Fake.artifact 0)) =
  Raise (LauncherError "InputConflict" "Target info path already exists!").
Proof.
  assert (invokes Create Examples.no_config) as H1 by apply docopt_invokes.
  assert (is_Some (files (Fake.created Fake.artifact 0)
                     !! arg_info_path Examples.no_config)) as H2
    by (eexists; vm_compute; reflexivity).
  split; [exact H1|]. split; [exact H2|].
  exact (proj2 (proj2
    (create_checks_path_first Fake.externals _ _ H1) H2) eq_refl).
Defined.

(** C10 as worded fails: with [-L loud] the error is InvalidOption, the
    info path existing and the configuration file missing. *)
Lemma create_check_first_counterexample :
  ¬ create_check_first_worded Fake.externals Examples.no_config_loud
      (Fake.created Fake.artifact 0).
Proof.
  intros H. unfold create_check_first_worded in H.
  assert (is_Some (files (Fake.created Fake.artifact 0)
                     !! arg_info_path Examples.no_config_loud)) as H2
    by (eexists; vm_compute; reflexivity).
  specialize (H (docopt_invokes _ _ _ _ _ _) H2).
  vm_compute in H. discriminate H.
Qed.

Lemma create_failure_writes_nothing_witness :
  invokes Create Examples.first_create ∧
  let r := do_main Fake.externals Examples.first_create (Fake.fresh (-1)) in
  outcome r = Raise (LauncherError "ProvisionError" "no capacity") ∧
  files (final r) !! "cluster_info.json" = None.
Proof.
  assert (invokes Create Examples.first_create) as H1 by apply docopt_invokes.
  split; [exact H1|].
  assert (LauncherCreate Fake.config
            (Raise (LauncherError "ProvisionError" "no capacity"))
          ∈ trace (do_main Fake.externals Examples.first_create
                     (Fake.fresh (-1)))) as Hin.
  { apply list_elem_of_lookup. exists 3%nat. vm_compute. reflexivity. }
  destruct (proj2 (create_failure_writes_nothing Fake.externals
                     Examples.first_create (Fake.fresh (-1)) H1) _ _ Hin)
    as (Hout & _ & _ & Hnone).
  split; [exact Hout | exact Hnone].
Defined.

Lemma describe_leaves_artifact_witness :
  invokes Describe Examples.describe ∧ Describe ≠ Create ∧
  files (final (main Fake.externals Examples.describe
                  (Fake.created Fake.artifact 0)))
  = files (Fake.created Fake.artifact 0).
Proof.
  assert (invokes Describe Examples.describe) as H1 by apply docopt_invokes.
  assert (Describe ≠ Create) as H2 by discriminate.
  split; [exact H1|]. split; [exact H2|].
  exact (proj1 (describe_leaves_artifact Fake.externals Describe _ _ H1 H2)).
Defined.

Lemma env_assignment_refused_witness :
  invokes Pytest Examples.pytest_assign ∧
  arg_env Examples.pytest_assign = Some "FOO=1" ∧
  contains "="%char "FOO=1" = true ∧
  error_kind (outcome (do_main Fake.externals Examples.pytest_assign
                         (Fake.created Fake.artifact 0)))
  = Some "OptionError".
Proof.
  assert (invokes Pytest Examples.pytest_assign) as H1 by apply docopt_invokes.
  split; [exact H1|]. split; [reflexivity|]. split; [reflexivity|].
  exact (proj2 (proj2
    (env_assignment_refused Fake.externals _ (Fake.created Fake.artifact 0)
       "FOO=1" H1 eq_refl eq_refl)) eq_refl).
Defined.

(** C5 as worded fails: the artifact names a provider that is not
    registered, and the error is UnsupportedProvider. *)
Lemma env_assignment_counterexample :
  ¬ env_assignment_worded Fake.externals Examples.pytest_assign
      (Fake.created Fake.unknown_artifact 0).
Proof.
  intros H.
  destruct (H (docopt_invokes _ _ _ _ _ _) "FOO=1" eq_refl eq_refl) as [Hk _].
  vm_compute in Hk. discriminate Hk.
Qed.

Lemma unset_variable :
  ¬ Forall (λ e, is_Some (environ (Fake.created Fake.artifact 0) !! e))
      (split ","%char "FOO,BAZ").
Proof.
  change (split ","%char "FOO,BAZ") with ["FOO"; "BAZ"]. intros H.
  apply Forall_cons in H as [_ H]. apply Forall_cons in H as [[v H] _].
  vm_compute in H. discriminate H.
Defined.

Lemma env_missing_refused_witness :
  invokes Pytest Examples.pytest_unset ∧
  arg_env Examples.pytest_unset = Some "FOO,BAZ" ∧
  ¬ Forall (λ e, is_Some (environ (Fake.created Fake.artifact 0) !! e))
      (split ","%char "FOO,BAZ") ∧
  error_kind (outcome (do_main Fake.externals Examples.pytest_unset
                         (Fake.created Fake.artifact 0)))
  = Some "MissingKeys".
Proof.
  assert (invokes Pytest Examples.pytest_unset) as H1 by apply docopt_invokes.
  split; [exact H1|]. split; [reflexivity|]. split; [exact unset_variable|].
  exact (proj1 (proj2 (proj2
    (env_missing_refused Fake.externals _ (Fake.created Fake.artifact 0)
       "FOO,BAZ" H1 eq_refl unset_variable)) eq_refl eq_refl)).
Defined.

(** C6 as worded fails: the artifact names a provider that is not
    registered, and the error is UnsupportedProvider. *)
Lemma env_missing_counterexample :
  ¬ env_missing_worded Fake.externals Examples.pytest_unset
      (Fake.created Fake.unknown_artifact 0).
Proof.
  intros H.
  destruct (H (docopt_invokes _ _ _ _ _ _) "FOO,BAZ" eq_refl unset_variable)
    as [Hk _].
  vm_compute in Hk. discriminate Hk.
Qed.


Lemma pytest_exit_code_witness :
  invokes Pytest Examples.plain_pytest ∧
  exit_code (outcome (main Fake.externals Examples.plain_pytest
                        (Fake.created Fake.artifact 3))) = 0.
Proof.
  assert (invokes Pytest Examples.plain_pytest) as H1 by apply docopt_invokes.
  split; [exact H1|].
  exact (proj1 (proj1 (pytest_exit_code Fake.externals _
                         (Fake.created Fake.artifact 3) H1) eq_refl)).
Defined.

(** C2 as worded fails: the launcher's test returns 3 and the exit code
    is 0. *)
Lemma pytest_exit_counterexample :
  ¬ pytest_exit_worded Fake.externals Examples.plain_pytest
      (Fake.created Fake.artifact 3).
Proof.
  intros H.
  destruct (H (docopt_invokes _ _ _ _ _ _)) as [Hn _].
  specialize (Hn Fake.artifact "py.test" 3).
  assert (exit_code (outcome (main Fake.externals Examples.plain_pytest
                                (Fake.created Fake.artifact 3))) = 3) as Hx.
  { apply Hn; [|reflexivity].
    apply list_elem_of_lookup. exists 2%nat. vm_compute. reflexivity. }
  vm_compute in Hx. discriminate Hx.
Qed.

Lemma main_reports_handled_errors_witness :
  outcome (do_main Fake.externals Examples.existing_debug
             (Fake.created Fake.artifact 0)) =
  Raise (LauncherError "InputConflict" "Target info path already exists!") ∧
  let r := main Fake.externals Examples.existing_debug
             (Fake.created Fake.artifact 0) in
  exit_code (outcome r) = 1 ∧
  stdout (final r) =
  [banner; "InputConflict: Target info path already exists!"].
Proof.
  assert (outcome (do_main Fake.externals Examples.existing_debug
                     (Fake.created Fake.artifact 0)) =
          Raise (LauncherError "InputConflict"
                   "Target info path already exists!")) as H1
    by (vm_compute; reflexivity).
  split; [exact H1|].
  destruct (main_reports_handled_errors Fake.externals _ _ _ H1)
    as (Hx & _ & _ & _ & Hs).
  split; [exact Hx | exact Hs].
Defined.

(** C3 as worded fails: [wait] without an artifact file ends in a
    FileNotFoundError that [main] does not catch; nothing is printed. *)
Lemma failure_report_counterexample :
  ¬ failure_report_worded Fake.externals Examples.wait (Fake.fresh 0).
Proof.
  intros H.
  destruct (H (OtherException "FileNotFoundError")) as (_ & _ & Hr).
  - vm_compute. reflexivity.
  - vm_compute in Hr. discriminate Hr.
Qed.

Lemma log_level_handling_witness :
  accepted (arg_log_level MoreExamples.wait_mixed_case) = true ∧
  let r := main Fake.externals MoreExamples.wait_mixed_case
             (Fake.created Fake.artifact 0) in
  log_levels (final r) !! "root" = Some WARNING ∧
  log_levels (final r) !! "botocore" = Some ERROR ∧
  log_levels (final r) !! "boto3" = Some ERROR.
Proof.
  assert (accepted (arg_log_level MoreExamples.wait_mixed_case) = true) as H1
    by reflexivity.
  split; [exact H1|].
  destruct (proj2 (proj2 (proj2 (proj2 (proj2
              (log_level_handling Fake.externals MoreExamples.wait_mixed_case
                 (Fake.created Fake.artifact 0)))))) H1)
    as (_ & _ & Hroot & requested & above & Hreq & Hnext & Hb & Hb3).
  injection Hreq as <-. injection Hnext as <-.
  split; [exact Hroot|]. split; [exact Hb | exact Hb3].
Defined.

(** C4 as worded fails: the level written with a dotless i is none of the
    six names in any case, and [wait] runs with it and exits with 0,
    [str.upper] making INFO of it. *)
Lemma log_level_counterexample :
  ¬ log_level_worded Fake.externals MoreExamples.wait_dotless
      (Fake.created Fake.artifact 0).
Proof.
  intros H. apply H; vm_compute; reflexivity.
Qed.

(** * The properties of whole runs on the example provider *)

Lemma create_success_calls_witness :
  invokes Create Examples.first_create ∧
  outcome (do_main Fake.externals Examples.first_create (Fake.fresh 0))
  = Ok (Some 0) ∧
  length (trace (do_main Fake.externals Examples.first_create (Fake.fresh 0)))
  = 5%nat.
Proof.
  assert (invokes Create Examples.first_create) as H1 by apply docopt_invokes.
  assert (outcome (do_main Fake.externals Examples.first_create (Fake.fresh 0))
          = Ok (Some 0)) as H2 by (vm_compute; reflexivity).
  split; [exact H1|]. split; [exact H2|].
  destruct (create_success_calls Fake.externals _ _ _ H1 H2)
    as (_ & _ & config & ty & pi & l & d & _ & _ & _ & _ & _ & Ht).
  rewrite Ht. reflexivity.
Defined.

Lemma write_fails_after_create :
  WriteJson "cluster_info.json"
    (<["type" := VStr "fake"]> (<["provider" := VDict []]> ∅))
    (Raise (OtherException "PermissionError"))
  ∈ trace (do_main MoreExamples.read_only Examples.first_create (Fake.fresh 0)).
Proof. apply list_elem_of_lookup. exists 4%nat. vm_compute. reflexivity. Defined.

Lemma create_write_failure_witness :
  invokes Create Examples.first_create ∧
  outcome (do_main MoreExamples.read_only Examples.first_create (Fake.fresh 0))
  = Raise (OtherException "PermissionError").
Proof.
  assert (invokes Create Examples.first_create) as H1 by apply docopt_invokes.
  split; [exact H1|].
  exact (proj1 (create_write_failure MoreExamples.read_only _ _ _ _ _ H1
                  write_fails_after_create)).
Defined.


Lemma do_main_output_witness :
  invokes Describe Examples.describe ∧
  let r := do_main Fake.externals Examples.describe
             (Fake.created Fake.artifact 0) in
  raised (outcome r) = false ∧
  ∃ info d,
    LauncherDescribe info (Ok d) ∈ trace r ∧
    stdout (final r) =
    (stdout (Fake.created Fake.artifact 0)
       ++ [json_prettyprint Fake.externals d])%list.
Proof.
  assert (invokes Describe Examples.describe) as H1 by apply docopt_invokes.
  split; [exact H1|]. split; [reflexivity|].
  exact (proj2 (do_main_output Fake.externals Describe _
                  (Fake.created Fake.artifact 0) H1) eq_refl).
Defined.

Lemma exit_code_zero_iff_no_error_witness :
  invokes Wait Examples.wait ∧
  exit_code (outcome (main Fake.externals Examples.wait
                        (Fake.created Fake.artifact 0))) = 0.
Proof.
  assert (invokes Wait Examples.wait) as H1 by apply docopt_invokes.
  split; [exact H1|].
  exact (proj2 (proj1 (proj2
    (exit_code_zero_iff_no_error Fake.externals Wait _
       (Fake.created Fake.artifact 0) H1))) eq_refl).
Defined.

Lemma environment_only_for_env_option_witness :
  invokes Pytest Examples.plain_pytest ∧
  (Pytest ≠ Pytest ∨ arg_env Examples.plain_pytest = None) ∧
  Forall (λ ev, is_environ ev = false)
    (trace (main Fake.externals Examples.plain_pytest
              (Fake.created Fake.artifact 3))).
Proof.
  assert (invokes Pytest Examples.plain_pytest) as H1 by apply docopt_invokes.
  assert (Pytest ≠ Pytest ∨ arg_env Examples.plain_pytest = None) as H2
    by (right; reflexivity).
  split; [exact H1|]. split; [exact H2|].
  exact (environment_only_for_env_option Fake.externals Pytest _ _ H1 H2).
Defined.




Lemma load_failure_stops_witness :
  invokes Wait Examples.wait ∧
  accepted (arg_log_level Examples.wait) = true ∧
  loaded_document Fake.externals Wait Examples.wait (files (Fake.fresh 0))
  = Raise (OtherException "FileNotFoundError") ∧
  trace (do_main Fake.externals Examples.wait (Fake.fresh 0)) =
  [LoadJson "cluster_info.json" (Raise (OtherException "FileNotFoundError"))].
Proof.
  assert (invokes Wait Examples.wait) as H1 by apply docopt_invokes.
  assert (loaded_document Fake.externals Wait Examples.wait
            (files (Fake.fresh 0))
          = Raise (OtherException "FileNotFoundError")) as H2
    by (vm_compute; reflexivity).
  split; [exact H1|]. split; [reflexivity|]. split; [exact H2|].
  refine (proj1 (proj2 (load_failure_stops Fake.externals Wait _ (Fake.fresh 0)
                          _ H1 eq_refl _ H2))).
  discriminate.
Defined.

Lemma provider_is_unsupported :
  GetLauncher (VStr "unknown-provider") (VDict []) (Some MoreExamples.unsupported)
  ∈ trace (do_main Fake.externals Examples.pytest_unset
             (Fake.created Fake.unknown_artifact 0)).
Proof. apply list_elem_of_lookup. exists 1%nat. vm_compute. reflexivity. Defined.

Lemma unresolved_provider_stops_witness :
  outcome (do_main Fake.externals Examples.pytest_unset
             (Fake.created Fake.unknown_artifact 0))
  = Raise MoreExamples.unsupported.
Proof.
  exact (proj1 (unresolved_provider_stops Fake.externals _ _ _ _ _
                  provider_is_unsupported)).
Defined.

Lemma fake_write_leaves_file path d (fs fs' : gmap string Fake.file) :
  write_json Fake.externals path d fs = (Ok tt, fs') → is_Some (fs' !! path).
Proof. intros [= <-]. rewrite lookup_insert_eq. by eexists. Defined.

Lemma create_twice_refused_witness :
  invokes Create Examples.first_create ∧
  raised (outcome (do_main Fake.externals Examples.first_create (Fake.fresh 0)))
  = false ∧
  outcome (do_main Fake.externals Examples.first_create
             (final (main Fake.externals Examples.first_create (Fake.fresh 0))))
  = Raise (LauncherError "InputConflict" "Target info path already exists!").
Proof.
  assert (invokes Create Examples.first_create) as H1 by apply docopt_invokes.
  split; [exact H1|]. split; [reflexivity|].
  exact (proj1 (create_twice_refused Fake.externals _ _ (Fake.fresh 0)
                  fake_write_leaves_file H1 H1 eq_refl eq_refl eq_refl)).
Defined.

Lemma info_path_stays_taken_witness :
  invokes Delete MoreExamples.delete_cluster ∧ Delete ≠ Create ∧
  outcome (do_main Fake.externals Examples.first_create
             (final (main Fake.externals MoreExamples.delete_cluster
                       (Fake.created Fake.artifact 0))))
  = Raise (LauncherError "InputConflict" "Target info path already exists!").
Proof.
  assert (invokes Delete MoreExamples.delete_cluster) as H1
    by apply docopt_invokes.
  assert (invokes Create Examples.first_create) as H2 by apply docopt_invokes.
  assert (Delete ≠ Create) as H3 by discriminate.
  assert (is_Some (files (Fake.created Fake.artifact 0)
                     !! arg_info_path Examples.first_create)) as H4
    by (eexists; vm_compute; reflexivity).
  split; [exact H1|]. split; [exact H3|].
  exact (proj1 (info_path_stays_taken Fake.externals Delete _ _
                  (Fake.created Fake.artifact 0) H1 H3 H2 H4 eq_refl)).
Defined.
